(** * samcli.commands.local.lib.provider

    A shallow embedding of [samcli/commands/local/lib/provider.py]
    (LayerVersion, Api and Cors) together with the parts of the Python
    runtime the module relies on: [str.rsplit], [int], [str.encode('utf-8')],
    [hashlib.sha256] and [hash].

    A Python [str] is modelled by the [string] of its UTF-8 bytes, so that a
    string literal of this file is the str it shows.  A lone surrogate
    (U+D800 .. U+DFFF), which a str can hold although UTF-8 has no encoding
    for it, is written as the three bytes 0xED 0xA0..0xBF 0x80..0xBF that the
    [surrogatepass] error handler gives it.  [Py.codepoints] reads the code
    points back; a string which is the image of no str has none, and the
    functions below are merely total on it.  The runtime is CPython 3.11 with
    its default settings. *)

From Stdlib Require Import ZArith Ascii String List Lia Bool.
From stdpp Require Import base gmap strings list.

Local Open Scope Z_scope.

(* ===================================================================== *)
(** ** hashlib.sha256 (FIPS 180-4), on bytes given as integers 0..255     *)
(* ===================================================================== *)

Module SHA256.

Definition mask32 : Z := 0xFFFFFFFF.

Definition add32 (x y : Z) : Z := (x + y) mod 2 ^ 32.

Definition rotr (n x : Z) : Z :=
  Z.lor (Z.shiftr x n) (Z.land (Z.shiftl x (32 - n)) mask32).

Definition Ch (x y z : Z) : Z :=
  Z.lxor (Z.land x y) (Z.land (Z.lxor x mask32) z).

Definition Maj (x y z : Z) : Z :=
  Z.lxor (Z.lxor (Z.land x y) (Z.land x z)) (Z.land y z).

Definition bsig0 (x : Z) : Z := Z.lxor (Z.lxor (rotr 2 x) (rotr 13 x)) (rotr 22 x).
Definition bsig1 (x : Z) : Z := Z.lxor (Z.lxor (rotr 6 x) (rotr 11 x)) (rotr 25 x).
Definition ssig0 (x : Z) : Z := Z.lxor (Z.lxor (rotr 7 x) (rotr 18 x)) (Z.shiftr x 3).
Definition ssig1 (x : Z) : Z := Z.lxor (Z.lxor (rotr 17 x) (rotr 19 x)) (Z.shiftr x 10).

(** Round constants: the first 32 bits of the fractional parts of the cube
    roots of the first 64 primes. *)
Definition K : list Z :=
  [ 0x428A2F98; 0x71374491; 0xB5C0FBCF; 0xE9B5DBA5;
    0x3956C25B; 0x59F111F1; 0x923F82A4; 0xAB1C5ED5;
    0xD807AA98; 0x12835B01; 0x243185BE; 0x550C7DC3;
    0x72BE5D74; 0x80DEB1FE; 0x9BDC06A7; 0xC19BF174;
    0xE49B69C1; 0xEFBE4786; 0x0FC19DC6; 0x240CA1CC;
    0x2DE92C6F; 0x4A7484AA; 0x5CB0A9DC; 0x76F988DA;
    0x983E5152; 0xA831C66D; 0xB00327C8; 0xBF597FC7;
    0xC6E00BF3; 0xD5A79147; 0x06CA6351; 0x14292967;
    0x27B70A85; 0x2E1B2138; 0x4D2C6DFC; 0x53380D13;
    0x650A7354; 0x766A0ABB; 0x81C2C92E; 0x92722C85;
    0xA2BFE8A1; 0xA81A664B; 0xC24B8B70; 0xC76C51A3;
    0xD192E819; 0xD6990624; 0xF40E3585; 0x106AA070;
    0x19A4C116; 0x1E376C08; 0x2748774C; 0x34B0BCB5;
    0x391C0CB3; 0x4ED8AA4A; 0x5B9CCA4F; 0x682E6FF3;
    0x748F82EE; 0x78A5636F; 0x84C87814; 0x8CC70208;
    0x90BEFFFA; 0xA4506CEB; 0xBEF9A3F7; 0xC67178F2 ].

(** The eight working variables / the intermediate hash value. *)
Record regs : Type := Regs {
  ra : Z; rb : Z; rc : Z; rd : Z; re : Z; rf : Z; rg : Z; rh : Z
}.

Definition H_init : regs :=
  Regs 0x6A09E667 0xBB67AE85 0x3C6EF372 0xA54FF53A
       0x510E527F 0x9B05688C 0x1F83D9AB 0x5BE0CD19.

(** Big-endian packing of a block of bytes into 32-bit words. *)
Fixpoint be_words (bs : list Z) : list Z :=
  match bs with
  | b0 :: b1 :: b2 :: b3 :: rest =>
      (((b0 * 256 + b1) * 256 + b2) * 256 + b3) :: be_words rest
  | _ => []
  end.

(** [extend n win]: the next [n] words of the message schedule, [win]
    being a window on the previous sixteen. *)
Fixpoint extend (n : nat) (win : list Z) : list Z :=
  match n with
  | O => []
  | S n' =>
      let wt := add32 (add32 (add32 (ssig1 (nth 14 win 0)) (nth 9 win 0))
                             (ssig0 (nth 1 win 0))) (nth 0 win 0) in
      wt :: extend n' (tl win ++ [wt])
  end.

Definition schedule (block : list Z) : list Z :=
  let w16 := be_words block in w16 ++ extend 48 w16.

Definition round (s : regs) (kw : Z * Z) : regs :=
  let t1 := add32 (add32 (add32 (add32 (rh s) (bsig1 (re s)))
                                (Ch (re s) (rf s) (rg s))) (fst kw)) (snd kw) in
  let t2 := add32 (bsig0 (ra s)) (Maj (ra s) (rb s) (rc s)) in
  Regs (add32 t1 t2) (ra s) (rb s) (rc s) (add32 (rd s) t1) (re s) (rf s) (rg s).

Definition compress (h : regs) (block : list Z) : regs :=
  let s := fold_left round (combine K (schedule block)) h in
  Regs (add32 (ra h) (ra s)) (add32 (rb h) (rb s))
       (add32 (rc h) (rc s)) (add32 (rd h) (rd s))
       (add32 (re h) (re s)) (add32 (rf h) (rf s))
       (add32 (rg h) (rg s)) (add32 (rh h) (rh s)).

(** The 64-bit big-endian bit length that ends the padding. *)
Definition be64 (n : Z) : list Z :=
  map (fun i => Z.land (Z.shiftr n (8 * i)) 255) [7; 6; 5; 4; 3; 2; 1; 0].

Definition pad (msg : list Z) : list Z :=
  let len := Z.of_nat (length msg) in
  msg ++ [128] ++ repeat 0 (Z.to_nat ((- (len + 9)) mod 64)) ++ be64 (8 * len).

(** Cut into 64-byte blocks; [fuel] bounds the number of blocks. *)
Fixpoint blocks (fuel : nat) (bs : list Z) : list (list Z) :=
  match fuel, bs with
  | O, _ | _, [] => []
  | S fuel', _ => firstn 64 bs :: blocks fuel' (skipn 64 bs)
  end.

Definition digest (msg : list Z) : regs :=
  let p := pad msg in
  fold_left compress (blocks (length p) p) H_init.

Definition hex_digit (d : Z) : ascii :=
  nth (Z.to_nat d) (list_ascii_of_string "0123456789abcdef") "0"%char.

Definition hex_word (x : Z) : list ascii :=
  map (fun i => hex_digit (Z.land (Z.shiftr x (4 * i)) 15)) [7; 6; 5; 4; 3; 2; 1; 0].

Definition regs_words (h : regs) : list Z :=
  [ra h; rb h; rc h; rd h; re h; rf h; rg h; rh h].

(** [hashlib.sha256(msg).hexdigest()] *)
Definition hexdigest (msg : list Z) : string :=
  string_of_list_ascii (concat (map hex_word (regs_words (digest msg)))).

End SHA256.

(* ===================================================================== *)
(** ** The Python runtime the module relies on                            *)
(* ===================================================================== *)

Module Py.

(** Python objects that reach this module from a parsed template. *)
#[warnings="-register-all"] Inductive value : Type :=
| VNone
| VBool (b : bool)
| VInt (n : Z)
| VStr (s : string)
| VList (xs : list value)
| VTuple (xs : list value)
| VDict (items : list (string * value)).

(** What a ValueError of the runtime says:
    - [NotEnoughValues e g]: "not enough values to unpack (expected e, got g)";
    - [TooManyValues e]: "too many values to unpack (expected e)";
    - [InvalidLiteral b s]: "invalid literal for int() with base b: " and
      the repr of [s];
    - [ExceedsDigitLimit l d]: "Exceeds the limit (l digits) for integer
      string conversion: value has d digits; ...". *)
Inductive value_error : Type :=
| NotEnoughValues (expected got : nat)
| TooManyValues (expected : nat)
| InvalidLiteral (base : Z) (literal : string)
| ExceedsDigitLimit (limit digits : nat).

Inductive exn : Type :=
| UnsupportedIntrinsic (arg : value)
    (* message: "{} is an Unsupported Intrinsic".format(arg) *)
| InvalidLayerVersionArn (msg : string)
| ValueError (msg : value_error)
| UnicodeEncodeError (encoding object : string) (start stop : nat) (reason : string)
    (* a subclass of ValueError; [start] and [stop] count code points *)
| TypeError (msg : string).

Inductive result (A : Type) : Type :=
| Ok (a : A)
| Raise (e : exn).
Arguments Ok {A} a.
Arguments Raise {A} e.

#[export] Instance result_ret : MRet result := fun A a => Ok a.
#[export] Instance result_bind : MBind result := fun A B f m =>
  match m with
  | Ok a => f a
  | Raise e => Raise e
  end.

(** [try: body / except ValueError: handler]; the clause also catches the
    subclass UnicodeEncodeError. *)
Definition try_except_ValueError {A} (body handler : result A) : result A :=
  match body with
  | Raise (ValueError _) => handler
  | Raise (UnicodeEncodeError _ _ _ _ _) => handler
  | r => r
  end.


(** [v is None] *)
Definition is_None (v : value) : bool :=
  match v with VNone => true | _ => false end.

(** [bool(x)] for [x] being [None] or a [str]. *)
Definition truthy (x : option string) : bool :=
  match x with
  | None => false
  | Some EmptyString => false
  | Some (String _ _) => true
  end.

(** *** str.rsplit(sep, maxsplit), for a one-character ASCII separator

    An ASCII character is one byte of the UTF-8 text and occurs in no other
    character's bytes, so cutting the bytes cuts the str. *)

(** [rcut sep s] cuts [s] at the last occurrence of [sep]. *)
Fixpoint rcut (sep : ascii) (s : string) : option (string * string) :=
  match s with
  | EmptyString => None
  | String c s' =>
      match rcut sep s' with
      | Some (pre, post) => Some (String c pre, post)
      | None => if Ascii.eqb c sep then Some (EmptyString, s') else None
      end
  end.

Fixpoint rsplit (sep : ascii) (maxsplit : nat) (s : string) : list string :=
  match maxsplit with
  | O => [s]
  | S k =>
      match rcut sep s with
      | None => [s]
      | Some (pre, post) => rsplit sep k pre ++ [post]
      end
  end.

(** [s.count(sep)] and [s.split(sep)]: the number of separators and
    all the segments they delimit. *)
Fixpoint count (sep : ascii) (s : string) : nat :=
  match s with
  | EmptyString => O
  | String c s' => if Ascii.eqb c sep then S (count sep s') else count sep s'
  end.

Fixpoint split (sep : ascii) (s : string) : list string :=
  match s with
  | EmptyString => [EmptyString]
  | String c s' =>
      if Ascii.eqb c sep then EmptyString :: split sep s'
      else match split sep s' with
           | seg :: rest => String c seg :: rest
           | [] => [String c EmptyString]
           end
  end.

(** Tuple unpacking [a, b = xs] and [a, b, c = xs]. *)
Definition unpack2 {A} (xs : list A) : result (A * A) :=
  match xs with
  | [a; b] => Ok (a, b)
  | _ :: _ :: _ :: _ => Raise (ValueError (TooManyValues 2))
  | _ => Raise (ValueError (NotEnoughValues 2 (length xs)))
  end.

Definition unpack3 {A} (xs : list A) : result (A * A * A) :=
  match xs with
  | [a; b; c] => Ok (a, b, c)
  | _ :: _ :: _ :: _ :: _ => Raise (ValueError (TooManyValues 3))
  | _ => Raise (ValueError (NotEnoughValues 3 (length xs)))
  end.

(** [sep.join(xs)] *)
Fixpoint join (sep : string) (xs : list string) : string :=
  match xs with
  | [] => EmptyString
  | [x] => x
  | x :: rest => String.append x (String.append sep (join sep rest))
  end.

(** *** The code points of a str *)

Definition bytes_of (s : string) : list Z :=
  map (fun c => Z.of_nat (nat_of_ascii c)) (list_ascii_of_string s).

Definition continuation (b : Z) : bool := (0x80 <=? b) && (b <=? 0xBF).

(** Shortest-form UTF-8, surrogates included, up to U+10FFFF. *)
Fixpoint decode (bs : list Z) : option (list Z) :=
  match bs with
  | [] => Some []
  | b0 :: bs1 =>
      if b0 <? 0x80 then cons b0 <$> decode bs1
      else
        match bs1 with
        | [] => None
        | b1 :: bs2 =>
            if (0xC2 <=? b0) && (b0 <=? 0xDF) then
              if continuation b1
              then cons ((b0 - 0xC0) * 64 + (b1 - 0x80)) <$> decode bs2
              else None
            else
              match bs2 with
              | [] => None
              | b2 :: bs3 =>
                  if (0xE0 <=? b0) && (b0 <=? 0xEF) then
                    if continuation b1 && continuation b2
                       && ((0xE0 <? b0) || (0xA0 <=? b1))
                    then cons (((b0 - 0xE0) * 64 + (b1 - 0x80)) * 64 + (b2 - 0x80))
                           <$> decode bs3
                    else None
                  else
                    match bs3 with
                    | [] => None
                    | b3 :: bs4 =>
                        if (0xF0 <=? b0) && (b0 <=? 0xF4)
                           && continuation b1 && continuation b2 && continuation b3
                           && ((0xF0 <? b0) || (0x90 <=? b1))
                           && ((b0 <? 0xF4) || (b1 <=? 0x8F))
                        then cons ((((b0 - 0xF0) * 64 + (b1 - 0x80)) * 64
                                    + (b2 - 0x80)) * 64 + (b3 - 0x80))
                               <$> decode bs4
                        else None
                    end
              end
        end
  end.

Definition codepoints (s : string) : option (list Z) := decode (bytes_of s).

Definition is_surrogate (cp : Z) : bool := (0xD800 <=? cp) && (cp <=? 0xDFFF).

(** *** int(s) for a str [s], base 10

    The characters are first brought to ASCII: a Unicode space becomes a
    blank, a Unicode decimal digit its ASCII digit, any other character from
    U+007F on a question mark.  Then blanks are skipped, one sign is read,
    then digits, which single underscores may separate; more digits than
    [sys.get_int_max_str_digits()] are refused; blanks may follow.  Every
    failure is a ValueError. *)

Definition int_max_str_digits : nat := 4300.

Definition ascii_space (c : Z) : bool := (9 <=? c) && (c <=? 13) || (c =? 32).

(** [str.isspace] from U+007F on. *)
Definition unicode_space (cp : Z) : bool :=
  existsb (Z.eqb cp) [0x85; 0xA0; 0x1680; 0x2028; 0x2029; 0x202F; 0x205F; 0x3000]
  || (0x2000 <=? cp) && (cp <=? 0x200A).

(** The zero of each run of ten decimal digits (Unicode 14.0). *)
Definition decimal_zeros : list Z :=
  [ 0x30; 0x660; 0x6F0; 0x7C0; 0x966; 0x9E6; 0xA66; 0xAE6; 0xB66; 0xBE6;
    0xC66; 0xCE6; 0xD66; 0xDE6; 0xE50; 0xED0; 0xF20; 0x1040; 0x1090; 0x17E0;
    0x1810; 0x1946; 0x19D0; 0x1A80; 0x1A90; 0x1B50; 0x1BB0; 0x1C40; 0x1C50;
    0xA620; 0xA8D0; 0xA900; 0xA9D0; 0xA9F0; 0xAA50; 0xABF0; 0xFF10; 0x104A0;
    0x10D30; 0x11066; 0x110F0; 0x11136; 0x111D0; 0x112F0; 0x11450; 0x114D0;
    0x11650; 0x116C0; 0x11730; 0x118E0; 0x11950; 0x11C50; 0x11D50; 0x11DA0;
    0x16A60; 0x16AC0; 0x16B50; 0x1D7CE; 0x1D7D8; 0x1D7E2; 0x1D7EC; 0x1D7F6;
    0x1E140; 0x1E2F0; 0x1E950; 0x1FBF0 ].

Definition to_decimal (cp : Z) : option Z :=
  match List.find (fun z => (z <=? cp) && (cp <? z + 10)) decimal_zeros with
  | Some z => Some (cp - z)
  | None => None
  end.

Definition to_ascii (cp : Z) : Z :=
  if cp <? 127 then cp
  else if unicode_space cp then 32
  else match to_decimal cp with
       | Some d => 48 + d
       | None => 63
       end.

Fixpoint skip_spaces (l : list Z) : list Z :=
  match l with
  | c :: l' => if ascii_space c then skip_spaces l' else l
  | [] => []
  end.

Definition is_digit (c : Z) : bool := (48 <=? c) && (c <=? 57).

(** The digits at the head of [l]: their value, their number and what
    follows them; nothing when an underscore is doubled or comes last. *)
Fixpoint scan_digits (acc : Z) (n : nat) (after_underscore : bool) (l : list Z)
    : option (Z * nat * list Z) :=
  match l with
  | [] => if after_underscore then None else Some (acc, n, [])
  | c :: l' =>
      if is_digit c then scan_digits (10 * acc + (c - 48)) (S n) false l'
      else if c =? 95 then
        if after_underscore then None else scan_digits acc n true l'
      else if after_underscore then None else Some (acc, n, l)
  end.

Definition int (s : string) : result Z :=
  let invalid : result Z := Raise (ValueError (InvalidLiteral 10 s)) in
  match codepoints s with
  | None => invalid
  | Some cps =>
      let l := skip_spaces (map to_ascii cps) in
      let '(negative, l) :=
        match l with
        | 43 :: l' => (false, l')
        | 45 :: l' => (true, l')
        | _ => (false, l)
        end in
      match l with
      | 95 :: _ => invalid
      | _ =>
          match scan_digits 0 0 false l with
          | None => invalid
          | Some (n, d, rest) =>
              if (int_max_str_digits <? d)%nat then
                Raise (ValueError (ExceedsDigitLimit int_max_str_digits d))
              else if (d =? 0)%nat then invalid
              else
                match skip_spaces rest with
                | [] => Ok (if negative then - n else n)
                | _ => invalid
                end
          end
      end
  end.

(** The integer [int(s)] returns, if it returns. *)
Definition parse_int (s : string) : option Z :=
  match int s with
  | Ok n => Some n
  | Raise _ => None
  end.

(** *** s.encode('utf-8')

    The bytes of a str are its UTF-8 encoding unless it holds a surrogate;
    the error names the first run of surrogates. *)

Fixpoint leading_surrogates (cps : list Z) : nat :=
  match cps with
  | cp :: cps' => if is_surrogate cp then S (leading_surrogates cps') else O
  | [] => O
  end.

(** Where the first run of surrogates starts and where it stops. *)
Fixpoint surrogate_run (i : nat) (cps : list Z) : option (nat * nat) :=
  match cps with
  | [] => None
  | cp :: cps' =>
      if is_surrogate cp then Some (i, (i + leading_surrogates cps)%nat)
      else surrogate_run (S i) cps'
  end.

(** Whether a str holds a surrogate. *)
Definition has_surrogate (s : string) : bool :=
  match codepoints s with
  | Some cps => existsb is_surrogate cps
  | None => false
  end.

Definition encode_utf8 (s : string) : result (list Z) :=
  match codepoints s with
  | Some cps =>
      match surrogate_run 0 cps with
      | Some (start, stop) =>
          Raise (UnicodeEncodeError "utf-8" s start stop "surrogates not allowed")
      | None => Ok (bytes_of s)
      end
  | None => Ok (bytes_of s)
  end.

(** [s[0:n]], for a str of ASCII characters (the hex digest) *)
Definition slice_to (n : nat) (s : string) : string := substring 0 n s.

(** *** hash(v)

    The hash of an atom ([None], a [bool], an [int], a [str]; salted per
    process for [str]) and the way a tuple combines the hashes of its
    elements are left open; lists, dicts and sets are unhashable. *)
Section Hash.
Variable hash_atom : value -> Z.
Variable hash_tuple : list Z -> Z.

Fixpoint hash (v : value) : result Z :=
  match v with
  | VNone | VBool _ | VInt _ | VStr _ => Ok (hash_atom v)
  | VTuple xs =>
      hs ← (fix hash_all (l : list value) : result (list Z) :=
              match l with
              | [] => Ok []
              | x :: l' => h ← hash x; hs ← hash_all l'; Ok (h :: hs)
              end) xs;
      Ok (hash_tuple hs)
  | VList _ => Raise (TypeError "unhashable type: 'list'")
  | VDict _ => Raise (TypeError "unhashable type: 'dict'")
  end.

(** [hash(s)] for a [set] object [s] *)
Definition hash_set (s : gset string) : result Z :=
  Raise (TypeError "unhashable type: 'set'").
End Hash.

End Py.
Import Py.

(* ===================================================================== *)
(** ** class LayerVersion                                                 *)
(* ===================================================================== *)

Module LayerVersion.

(** The instance dictionary; [_codeuri] is [None] or a [str]. *)
Record t : Type := Build {
  _arn : string;
  _codeuri : option string;
  is_defined_within_template : bool;
  _name : string;
  _version : option Z
}.

Definition LAYER_NAME_DELIMETER : string := "-".

Definition invalid_arn {A} (arn : string) : result A :=
  Raise (InvalidLayerVersionArn (arn +:+ " is an Invalid Layer Arn.")).

Definition _compute_layer_version
    (is_defined_within_template : bool) (arn : string) : result (option Z) :=
  if is_defined_within_template then Ok None
  else
    layer_version ←
      try_except_ValueError
        ('(_, layer_version) ← unpack2 (rsplit ":" 1 arn);
         int layer_version)
        (invalid_arn arn);
    Ok (Some layer_version).

Definition _compute_layer_name
    (is_defined_within_template : bool) (arn : string) : result string :=
  if is_defined_within_template then Ok arn
  else
    '(_, layer_name, layer_version) ←
      try_except_ValueError (unpack3 (rsplit ":" 2 arn)) (invalid_arn arn);
    encoded ← encode_utf8 arn;
    Ok (join LAYER_NAME_DELIMETER
          [layer_name; layer_version; slice_to 10 (SHA256.hexdigest encoded)]).

Definition __init__ (arn : value) (codeuri : option string) : result t :=
  match arn with
  | VStr arn =>
      let is_defined_within_template := truthy codeuri in
      name ← _compute_layer_name is_defined_within_template arn;
      version ← _compute_layer_version is_defined_within_template arn;
      Ok (Build arn codeuri is_defined_within_template name version)
  | _ => Raise (UnsupportedIntrinsic arn)
  end.

Definition arn (self : t) : string := _arn self.
Definition name (self : t) : string := _name self.
Definition codeuri (self : t) : option string := _codeuri self.
Definition version (self : t) : option Z := _version self.

Definition layer_arn (self : t) : result string :=
  '(layer_arn, _) ← unpack2 (rsplit ":" 1 (arn self));
  Ok layer_arn.

(** The [codeuri] setter. *)
Definition set_codeuri (self : t) (codeuri : option string) : t :=
  Build (_arn self) codeuri (is_defined_within_template self)
        (_name self) (_version self).

(** What [__eq__] may be handed: another LayerVersion or anything else. *)
Inductive object : Type :=
| Instance (other : t)
| Other (v : value).

(** [self.__dict__ == other.__dict__], attribute by attribute. *)
Definition dict_eq (a b : t) : bool :=
  bool_decide (_arn a = _arn b)
  && bool_decide (_codeuri a = _codeuri b)
  && bool_decide (is_defined_within_template a = is_defined_within_template b)
  && bool_decide (_name a = _name b)
  && bool_decide (_version a = _version b).

Definition __eq__ (self : t) (other : object) : bool :=
  match other with
  | Instance other => dict_eq self other
  | Other _ => false
  end.

End LayerVersion.

(* ===================================================================== *)
(** ** class Cors                                                         *)
(* ===================================================================== *)

Module Cors.

(** The namedtuple; a field that is not set holds [None]. *)
Record t : Type := Build {
  allow_origin : value;
  allow_methods : value;
  allow_headers : value;
  max_age : value
}.

(** [Cors()]: every field takes its default. *)
Definition default : t := Build VNone VNone VNone VNone.

Definition fields (c : t) : list value :=
  [allow_origin c; allow_methods c; allow_headers c; max_age c].

(** [bool(cors)] for [cors] being [None] or a Cors: a tuple of four
    fields is not empty. *)
Definition truthy (cors : option t) : bool :=
  match cors with
  | None => false
  | Some c => negb (Nat.eqb (length (fields c)) 0)
  end.

Definition cors_to_headers (cors : option t) : gmap string value :=
  match cors with
  | Some c =>
      if negb (truthy cors) then ∅
      else
        let headers : gmap string value :=
          <["Access-Control-Max-Age" := max_age c]>
          (<["Access-Control-Allow-Headers" := allow_headers c]>
          (<["Access-Control-Allow-Methods" := allow_methods c]>
          (<["Access-Control-Allow-Origin" := allow_origin c]> ∅))) in
        filter (fun kv => is_None kv.2 = false) headers
  | None => ∅
  end.

End Cors.

(* ===================================================================== *)
(** ** class Api                                                          *)
(* ===================================================================== *)

Module Api.

Record t : Type := Build {
  routes : value;
  cors : option Cors.t;
  binary_media_types_set : gset string;
  stage_name : value;
  stage_variables : value
}.

(** [Api(routes)]; [routes=None] is the default argument. *)
Definition __init__ (routes : value) : t :=
  let routes := if is_None routes then VList [] else routes in
  Build routes None ∅ VNone VNone.

Section Hash.
Variable hash_atom : value -> Z.
Variable hash_tuple : list Z -> Z.

(** [hash(self.cors)]: of [None], or of the named tuple. *)
Definition hash_cors (c : option Cors.t) : result Z :=
  match c with
  | None => hash hash_atom hash_tuple VNone
  | Some c => hash hash_atom hash_tuple (VTuple (Cors.fields c))
  end.

Definition __hash__ (self : t) : result Z :=
  h_routes ← hash hash_atom hash_tuple (routes self);
  h_cors ← hash_cors (cors self);
  h_types ← hash_set (binary_media_types_set self);
  Ok (h_routes * h_cors * h_types).
End Hash.

Definition binary_media_types (self : t) : list string :=
  elements (binary_media_types_set self).

End Api.

(* ===================================================================== *)
(** ** Vocabulary of the statements                                       *)
(* ===================================================================== *)

(** A character of [0-9a-f]. *)
Definition is_lower_hex (c : ascii) : bool :=
  let n := nat_of_ascii c in
  ((48 <=? n) && (n <=? 57) || (97 <=? n) && (n <=? 102))%nat.

(** The name given to a published layer. *)
Definition published_name (arn n v : string) : string :=
  join LayerVersion.LAYER_NAME_DELIMETER
    [n; v; slice_to 10 (SHA256.hexdigest (bytes_of arn))].

(** The str of the one code point U+D800, a surrogate with no partner. *)
Definition lone_surrogate : string :=
  String "237" (String "160" (String "128" EmptyString)).

(** What a field contributes to the headers: nothing when it is [None]. *)
Definition present (v : value) : option value :=
  if is_None v then None else Some v.

Definition header_names : list string :=
  ["Access-Control-Allow-Origin"; "Access-Control-Allow-Methods";
   "Access-Control-Allow-Headers"; "Access-Control-Max-Age"].

(** The dictionary before it is filtered. *)
Definition all_headers (c : Cors.t) : gmap string value :=
  <["Access-Control-Max-Age" := Cors.max_age c]>
  (<["Access-Control-Allow-Headers" := Cors.allow_headers c]>
  (<["Access-Control-Allow-Methods" := Cors.allow_methods c]>
  (<["Access-Control-Allow-Origin" := Cors.allow_origin c]> ∅))).

(** The message every InvalidLayerVersionArn of this module carries. *)
Definition invalid_arn_message (arn : string) : string :=
  arn +:+ " is an Invalid Layer Arn.".

(** A Cors that sets no header: none at all, or one with no field set. *)
Definition blank_cors (c : option Cors.t) : Prop :=
  c = None \/ c = Some Cors.default.

(** The fields of a Cors that are set. *)
Definition set_fields (c : Cors.t) : list value :=
  List.filter (fun v => negb (is_None v)) (Cors.fields c).

(* ===================================================================== *)
(** ** Strings: append, cutting and splitting                             *)
(* ===================================================================== *)

Section StringFacts.

Lemma append_nil (b : string) : EmptyString +:+ b = b.
Proof. reflexivity. Qed.

Lemma append_cons (x : ascii) (a b : string) :
  String x a +:+ b = String x (a +:+ b).
Proof. reflexivity. Qed.

Lemma append_assoc (a b c : string) : (a +:+ b) +:+ c = a +:+ (b +:+ c).
Proof.
  induction a as [|x a IH]; [reflexivity|].
  now rewrite !append_cons, IH.
Qed.

Lemma append_length (a b : string) :
  String.length (a +:+ b) = (String.length a + String.length b)%nat.
Proof.
  induction a as [|x a IH]; [reflexivity|].
  rewrite append_cons. simpl. now rewrite IH.
Qed.

Lemma chars_append (a b : string) :
  list_ascii_of_string (a +:+ b) = list_ascii_of_string a ++ list_ascii_of_string b.
Proof.
  induction a as [|x a IH]; [reflexivity|].
  rewrite append_cons. simpl. now rewrite IH.
Qed.

Lemma chars_length (a : string) :
  length (list_ascii_of_string a) = String.length a.
Proof. induction a as [|x a IH]; simpl; [reflexivity | now rewrite IH]. Qed.

(** A slice [s[0:n]] is a prefix of [s], of length [min n (len s)]. *)
Lemma slice_to_prefix (n : nat) (s : string) :
  exists rest, s = slice_to n s +:+ rest.
Proof.
  revert s; induction n as [|n IH]; intros s.
  - exists s. destruct s; reflexivity.
  - destruct s as [|c s]; [exists EmptyString; reflexivity|].
    destruct (IH s) as [rest Hrest]. exists rest.
    unfold slice_to in *. simpl. now rewrite append_cons, <- Hrest.
Qed.

Lemma slice_to_length (n : nat) (s : string) :
  String.length (slice_to n s) = Nat.min n (String.length s).
Proof.
  revert s; induction n as [|n IH]; intros s.
  - destruct s; reflexivity.
  - destruct s as [|c s]; [reflexivity|].
    unfold slice_to in *. simpl. now rewrite IH.
Qed.

Variable sep : ascii.

Lemma rcut_None_count (s : string) : rcut sep s = None <-> count sep s = O.
Proof.
  induction s as [|c s IH]; simpl; [tauto|].
  destruct (rcut sep s) as [[pre post]|].
  - destruct (Ascii.eqb c sep); split; try discriminate.
    intros H. apply IH in H. discriminate.
  - destruct (Ascii.eqb c sep); split; try discriminate; try reflexivity.
    intros _. now apply IH.
Qed.

(** Cutting gives back the two sides of the last separator. *)
Lemma rcut_Some (s pre post : string) :
  rcut sep s = Some (pre, post) ->
  s = pre +:+ String sep post /\ count sep post = O.
Proof.
  revert pre post; induction s as [|c s IH]; intros pre post; simpl; [discriminate|].
  destruct (rcut sep s) as [[pre' post']|] eqn:E.
  - intros [= <- <-]. destruct (IH _ _ eq_refl) as [-> Hc]. now split.
  - destruct (Ascii.eqb c sep) eqn:Ec; [|discriminate].
    intros [= <- <-]. apply Ascii.eqb_eq in Ec as ->.
    split; [reflexivity | now apply rcut_None_count].
Qed.

Lemma rcut_append (pre post : string) :
  count sep post = O -> rcut sep (pre +:+ String sep post) = Some (pre, post).
Proof.
  intros Hpost. induction pre as [|c pre IH].
  - simpl. apply rcut_None_count in Hpost as ->. now rewrite Ascii.eqb_refl.
  - rewrite append_cons. simpl. now rewrite IH.
Qed.

Lemma split_nonempty (s : string) : split sep s <> [].
Proof.
  induction s as [|c s IH]; simpl; [discriminate|].
  destruct (Ascii.eqb c sep); [discriminate|].
  destruct (split sep s); discriminate.
Qed.

(** The segments of [s] are those before its last separator, then the
    one after it. *)
Lemma split_rcut (s : string) :
  split sep s =
    match rcut sep s with
    | None => [s]
    | Some (pre, post) => split sep pre ++ [post]
    end.
Proof.
  induction s as [|c s IH]; simpl; [reflexivity|].
  destruct (rcut sep s) as [[pre post]|] eqn:E; rewrite IH.
  - simpl. destruct (Ascii.eqb c sep); [reflexivity|].
    pose proof (split_nonempty pre) as Hne.
    destruct (split sep pre); [congruence | reflexivity].
  - destruct (Ascii.eqb c sep); reflexivity.
Qed.


(** [rsplit] keeps the last [maxsplit] segments apart. *)
Lemma rsplit_length (maxsplit : nat) (s : string) :
  length (rsplit sep maxsplit s) = Nat.min (S maxsplit) (length (split sep s)).
Proof.
  revert s; induction maxsplit as [|k IH]; intros s.
  - simpl. pose proof (split_nonempty s). destruct (split sep s); [congruence|reflexivity].
  - cbn [rsplit]. rewrite (split_rcut s).
    destruct (rcut sep s) as [[pre post]|]; [|reflexivity].
    rewrite !length_app, IH. simpl length. lia.
Qed.

Lemma rsplit_last (maxsplit : nat) (s : string) :
  List.last (rsplit sep (S maxsplit) s) EmptyString = List.last (split sep s) EmptyString.
Proof.
  cbn [rsplit]. rewrite (split_rcut s).
  destruct (rcut sep s) as [[pre post]|]; [|reflexivity].
  now rewrite !last_last.
Qed.

End StringFacts.

(* ===================================================================== *)
(** ** The hex digest: sixty-four lowercase hexadecimal characters       *)
(* ===================================================================== *)

Lemma hex_digit_lower (x : Z) :
  is_lower_hex (SHA256.hex_digit (Z.land x 15)) = true.
Proof.
  assert (Hd : 0 <= Z.land x 15 < 16).
  { change 15 with (Z.ones 4). rewrite Z.land_ones by lia.
    apply Z.mod_pos_bound. lia. }
  set (d := Z.land x 15) in *. clearbody d.
  assert (Hcases : d = 0 \/ d = 1 \/ d = 2 \/ d = 3 \/ d = 4 \/ d = 5 \/ d = 6
                   \/ d = 7 \/ d = 8 \/ d = 9 \/ d = 10 \/ d = 11 \/ d = 12
                   \/ d = 13 \/ d = 14 \/ d = 15) by lia.
  repeat (destruct Hcases as [-> | Hcases]; [reflexivity|]).
  subst d. reflexivity.
Qed.

Lemma hex_word_lower (x : Z) : Forall (fun c => is_lower_hex c = true) (SHA256.hex_word x).
Proof. unfold SHA256.hex_word. simpl. repeat constructor; apply hex_digit_lower. Qed.

Lemma hexdigest_chars (msg : list Z) :
  list_ascii_of_string (SHA256.hexdigest msg)
  = concat (map SHA256.hex_word (SHA256.regs_words (SHA256.digest msg))).
Proof. unfold SHA256.hexdigest. apply list_ascii_of_string_of_list_ascii. Qed.

Lemma hexdigest_length (msg : list Z) : String.length (SHA256.hexdigest msg) = 64%nat.
Proof. rewrite <- chars_length, hexdigest_chars. reflexivity. Qed.

Lemma hexdigest_lower (msg : list Z) :
  Forall (fun c => is_lower_hex c = true) (list_ascii_of_string (SHA256.hexdigest msg)).
Proof.
  rewrite hexdigest_chars. apply Forall_concat.
  unfold SHA256.regs_words. cbn [map].
  repeat (constructor; [apply hex_word_lower|]). constructor.
Qed.

(** Sixty-four bytes to a block: cutting the padded message loses nothing. *)
Lemma blocks_concat (fuel : nat) (bs : list Z) :
  (length bs <= fuel)%nat -> concat (SHA256.blocks fuel bs) = bs.
Proof.
  revert bs; induction fuel as [|fuel IH]; intros bs Hlen.
  - destruct bs; [reflexivity | simpl in Hlen; lia].
  - destruct bs as [|b bs]; [reflexivity|].
    cbn [SHA256.blocks concat]. rewrite IH.
    + apply firstn_skipn.
    + rewrite length_skipn. simpl in *. lia.
Qed.

Lemma pad_length (msg : list Z) : (Z.of_nat (length (SHA256.pad msg))) mod 64 = 0.
Proof.
  unfold SHA256.pad. rewrite !length_app, repeat_length. simpl length.
  set (len := Z.of_nat (length msg)).
  assert (Hk : 0 <= (- (len + 9)) mod 64 < 64) by (apply Z.mod_pos_bound; lia).
  rewrite !Nat2Z.inj_add, Z2Nat.id by lia. fold len.
  change (Z.of_nat 1) with 1. change (Z.of_nat 8) with 8.
  replace (len + (1 + ((- (len + 9)) mod 64 + 8))) with ((len + 9) + (- (len + 9)) mod 64) by lia.
  rewrite Zplus_mod_idemp_r. replace (len + 9 + - (len + 9)) with 0 by lia. reflexivity.
Qed.

(** hashlib's test vectors for the empty message and for ["abc"]. *)
Example sha256_empty :
  SHA256.hexdigest [] = "e3b0c44298fc1c149afbf4c8996fb92427ae41e4649b934ca495991b7852b855".
Proof. vm_compute. reflexivity. Qed.

Example sha256_abc :
  SHA256.hexdigest (bytes_of "abc")
  = "ba7816bf8f01cfea414140de5dae2223b00361a396177a9cb410ff61f20015ad".
Proof. vm_compute. reflexivity. Qed.

(** The runtime on a few strs: Unicode digits and blanks, the limit on the
    number of digits, and the encoding of a str with and without a
    surrogate. *)
Example int_reads_unicode_digits :
  parse_int "١٢" = Some 12 /\ parse_int " -1_000 " = Some (-1000)
  /\ parse_int "４２" = Some 42 /\ parse_int "1__0" = None /\ parse_int "²" = None.
Proof. vm_compute. repeat split. Qed.

Example int_digit_limit :
  is_Some (parse_int (string_of_list_ascii (repeat "1"%char 4300)))
  /\ int (string_of_list_ascii (repeat "1"%char 4301))
     = Raise (ValueError (ExceedsDigitLimit 4300 4301)).
Proof. split; [vm_compute; eauto | vm_compute; reflexivity]. Qed.

Example encode_examples :
  encode_utf8 "é:4" = Ok [195; 169; 58; 52]
  /\ codepoints ("a" +:+ lone_surrogate) = Some [97; 0xD800]
  /\ encode_utf8 ("a" +:+ lone_surrogate)
     = Raise (UnicodeEncodeError "utf-8" ("a" +:+ lone_surrogate) 1 2
                "surrogates not allowed").
Proof. vm_compute. repeat split. Qed.

(* ===================================================================== *)
(** ** LayerVersion: construction                                         *)
(* ===================================================================== *)

Lemma rsplit1_cut (sep : ascii) (s p1 v : string) :
  rcut sep s = Some (p1, v) -> rsplit sep 1 s = [p1; v].
Proof. intros H. cbn [rsplit]. now rewrite H. Qed.

Lemma rsplit2_cut (sep : ascii) (s p1 v p0 n : string) :
  rcut sep s = Some (p1, v) -> rcut sep p1 = Some (p0, n) ->
  rsplit sep 2 s = [p0; n; v].
Proof. intros H1 H2. cbn [rsplit]. now rewrite H1, H2. Qed.

(** Encoding fails exactly on a str that holds a surrogate. *)
Lemma surrogate_run_None (cps : list Z) (i : nat) :
  existsb is_surrogate cps = false -> surrogate_run i cps = None.
Proof.
  revert i; induction cps as [|cp cps IH]; intros i; [reflexivity|].
  simpl. destruct (is_surrogate cp); [discriminate|]. apply IH.
Qed.

Lemma surrogate_run_Some (cps : list Z) (i : nat) :
  existsb is_surrogate cps = true ->
  exists start stop, surrogate_run i cps = Some (start, stop).
Proof.
  revert i; induction cps as [|cp cps IH]; intros i; [discriminate|].
  simpl. destruct (is_surrogate cp); [eauto|]. apply IH.
Qed.

Lemma encode_no_surrogate (s : string) :
  has_surrogate s = false -> encode_utf8 s = Ok (bytes_of s).
Proof.
  unfold has_surrogate, encode_utf8. destruct (codepoints s) as [cps|]; [|reflexivity].
  intros H. now rewrite (surrogate_run_None _ _ H).
Qed.

Lemma encode_surrogate (s : string) :
  has_surrogate s = true ->
  exists start stop,
    encode_utf8 s = Raise (UnicodeEncodeError "utf-8" s start stop "surrogates not allowed").
Proof.
  unfold has_surrogate, encode_utf8. destruct (codepoints s) as [cps|]; [|discriminate].
  intros H. destruct (surrogate_run_Some _ 0%nat H) as (start & stop & ->). eauto.
Qed.

(** [int] returns the integer read or raises ValueError. *)
Lemma int_parse (v : string) (k : Z) : parse_int v = Some k -> int v = Ok k.
Proof. unfold parse_int. destruct (int v); congruence. Qed.

Lemma int_raises_ValueError (v : string) (e : exn) :
  int v = Raise e -> exists cause, e = ValueError cause.
Proof.
  unfold int. repeat case_match; intros Hraise; try discriminate Hraise;
    injection Hraise as <-; eauto.
Qed.

Lemma int_no_parse (v : string) :
  parse_int v = None -> exists cause, int v = Raise (ValueError cause).
Proof.
  unfold parse_int. destruct (int v) as [k|e] eqn:E; [discriminate|].
  intros _. destruct (int_raises_ValueError _ _ E) as [cause ->]. eauto.
Qed.

Lemma init_published (arn p1 v p0 n : string) (k : Z) (codeuri : option string) :
  truthy codeuri = false ->
  rcut ":" arn = Some (p1, v) -> rcut ":" p1 = Some (p0, n) ->
  has_surrogate arn = false ->
  parse_int v = Some k ->
  LayerVersion.__init__ (VStr arn) codeuri
  = Ok (LayerVersion.Build arn codeuri false (published_name arn n v) (Some k)).
Proof.
  intros Hc H1 H2 Hs Hk.
  unfold LayerVersion.__init__, LayerVersion._compute_layer_name,
    LayerVersion._compute_layer_version.
  rewrite Hc, (rsplit2_cut _ _ _ _ _ _ H1 H2), (rsplit1_cut _ _ _ _ H1).
  cbn. rewrite (encode_no_surrogate _ Hs). cbn.
  rewrite (int_parse _ _ Hk). reflexivity.
Qed.

Lemma init_local (arn : string) (codeuri : option string) :
  truthy codeuri = true ->
  LayerVersion.__init__ (VStr arn) codeuri
  = Ok (LayerVersion.Build arn codeuri true arn None).
Proof. intros Hc. unfold LayerVersion.__init__. now rewrite Hc. Qed.

Lemma init_too_few_segments (arn : string) (codeuri : option string) :
  truthy codeuri = false ->
  (length (rsplit ":" 2 arn) < 3)%nat ->
  LayerVersion.__init__ (VStr arn) codeuri = LayerVersion.invalid_arn arn.
Proof.
  intros Hc Hlen.
  unfold LayerVersion.__init__, LayerVersion._compute_layer_name. rewrite Hc.
  destruct (rsplit ":" 2 arn) as [|a [|b [|c [|d l]]]]; simpl in Hlen; try lia; reflexivity.
Qed.

Lemma init_bad_version (arn p1 v p0 n : string) (codeuri : option string) :
  truthy codeuri = false ->
  rcut ":" arn = Some (p1, v) -> rcut ":" p1 = Some (p0, n) ->
  has_surrogate arn = false ->
  parse_int v = None ->
  LayerVersion.__init__ (VStr arn) codeuri = LayerVersion.invalid_arn arn.
Proof.
  intros Hc H1 H2 Hs Hk.
  unfold LayerVersion.__init__, LayerVersion._compute_layer_name,
    LayerVersion._compute_layer_version.
  rewrite Hc, (rsplit2_cut _ _ _ _ _ _ H1 H2), (rsplit1_cut _ _ _ _ H1).
  cbn. rewrite (encode_no_surrogate _ Hs). cbn.
  destruct (int_no_parse _ Hk) as [cause ->]. reflexivity.
Qed.

(** With three segments and a surrogate, the encoding error of
    [_compute_layer_name] leaves the constructor, whatever the version. *)
Lemma init_unencodable (arn p1 v p0 n : string) (codeuri : option string) :
  truthy codeuri = false ->
  rcut ":" arn = Some (p1, v) -> rcut ":" p1 = Some (p0, n) ->
  has_surrogate arn = true ->
  exists start stop,
    LayerVersion.__init__ (VStr arn) codeuri
    = Raise (UnicodeEncodeError "utf-8" arn start stop "surrogates not allowed").
Proof.
  intros Hc H1 H2 Hs.
  destruct (encode_surrogate _ Hs) as (start & stop & He). exists start, stop.
  unfold LayerVersion.__init__, LayerVersion._compute_layer_name.
  rewrite Hc, (rsplit2_cut _ _ _ _ _ _ H1 H2). cbn. rewrite He. reflexivity.
Qed.

(** An arn with at least three segments cuts twice. *)
Lemma three_segments_cut (arn : string) :
  (3 <= length (split ":" arn))%nat ->
  exists p1 v p0 n,
    rcut ":" arn = Some (p1, v) /\ rcut ":" p1 = Some (p0, n)
    /\ List.last (split ":" arn) EmptyString = v.
Proof.
  intros Hlen. pose proof (split_rcut ":" arn) as Hs.
  destruct (rcut ":" arn) as [[p1 v]|] eqn:H1; rewrite Hs in Hlen |- *;
    [|simpl in Hlen; lia].
  rewrite length_app in Hlen. simpl in Hlen.
  pose proof (split_rcut ":" p1) as Hs1.
  destruct (rcut ":" p1) as [[p0 n]|] eqn:H2; rewrite Hs1 in Hlen;
    [|simpl in Hlen; lia].
  exists p1, v, p0, n. repeat split; [exact H2 | apply last_last].
Qed.

(** [__eq__] between two instances holds exactly when all five attributes
    agree. *)
Lemma dict_eq_spec (a b : LayerVersion.t) :
  LayerVersion.dict_eq a b = true <-> a = b.
Proof.
  destruct a as [a1 a2 a3 a4 a5], b as [b1 b2 b3 b4 b5].
  unfold LayerVersion.dict_eq. cbn.
  rewrite !andb_true_iff, !bool_decide_eq_true. split.
  - intros [[[[-> ->] ->] ->] ->]. reflexivity.
  - intros [= -> -> -> -> ->]. repeat split.
Qed.

(** ** LayerVersion: the claims *)

(** C1, as amended. For an arn [...:<n>:<v>] that holds no surrogate, so
    that it has a UTF-8 encoding, and whose last segment [v] parses as a
    non-negative integer [k], constructing the LayerVersion with an empty
    codeuri succeeds with [version == k] and [name == "<n>-<v>-<suffix>"],
    the suffix being the first ten characters of the sha256 hex digest of
    the UTF-8 encoded arn, all of them lowercase hexadecimal. *)
Theorem C1_published_name_and_version
    (pre n v : string) (k : Z) (codeuri : option string) :
  count ":" n = O -> count ":" v = O ->
  parse_int v = Some k -> 0 <= k ->
  truthy codeuri = false ->
  let arn := pre +:+ ":" +:+ n +:+ ":" +:+ v in
  has_surrogate arn = false ->
  exists lv suffix rest encoded,
    LayerVersion.__init__ (VStr arn) codeuri = Ok lv
    /\ LayerVersion.version lv = Some k
    /\ LayerVersion.name lv = n +:+ "-" +:+ v +:+ "-" +:+ suffix
    /\ encode_utf8 arn = Ok encoded
    /\ SHA256.hexdigest encoded = suffix +:+ rest
    /\ String.length suffix = 10%nat
    /\ Forall (fun c => is_lower_hex c = true) (list_ascii_of_string suffix).
Proof.
  intros Hn Hv Hk _ Hc arn Hs.
  assert (H1 : rcut ":" arn = Some (pre +:+ ":" +:+ n, v)).
  { replace arn with ((pre +:+ ":" +:+ n) +:+ String ":" v).
    - now apply rcut_append.
    - subst arn. now rewrite append_assoc. }
  assert (H2 : rcut ":" (pre +:+ ":" +:+ n) = Some (pre, n)).
  { change (":" +:+ n) with (String ":" n). now apply rcut_append. }
  set (digest := SHA256.hexdigest (bytes_of arn)).
  destruct (slice_to_prefix 10 digest) as [rest Hrest].
  exists (LayerVersion.Build arn codeuri false (published_name arn n v) (Some k)),
    (slice_to 10 digest), rest, (bytes_of arn).
  split; [now apply init_published with (p1 := pre +:+ ":" +:+ n) (p0 := pre)|].
  split; [reflexivity|]. split; [reflexivity|].
  split; [now apply encode_no_surrogate|]. split; [exact Hrest|].
  split.
  - rewrite slice_to_length. unfold digest. now rewrite hexdigest_length.
  - pose proof (hexdigest_lower (bytes_of arn)) as Hall.
    fold digest in Hall. rewrite Hrest, chars_append in Hall.
    now apply Forall_app in Hall as [Hall _].
Qed.

Lemma C1_published_name_and_version_witness :
  exists lv suffix rest encoded,
    LayerVersion.__init__ (VStr "arn:aws:lambda:us-east-1:123:layer:mylayer:4") None = Ok lv
    /\ LayerVersion.version lv = Some 4
    /\ LayerVersion.name lv = "mylayer" +:+ "-" +:+ "4" +:+ "-" +:+ suffix
    /\ encode_utf8 "arn:aws:lambda:us-east-1:123:layer:mylayer:4" = Ok encoded
    /\ SHA256.hexdigest encoded = suffix +:+ rest
    /\ String.length suffix = 10%nat
    /\ Forall (fun c => is_lower_hex c = true) (list_ascii_of_string suffix).
Proof.
  apply (C1_published_name_and_version
           "arn:aws:lambda:us-east-1:123:layer" "mylayer" "4" 4 None);
    first [reflexivity | lia].
Defined.

(** C1, as first stated, fails: the arn
    [arn:aws:lambda:us-east-1:123:layer:<U+D800>:4] is a str of the stated
    shape whose last segment reads as 4, and the constructor raises
    UnicodeEncodeError for it instead of building a layer. *)
Lemma C1_counterexample :
  let pre := "arn:aws:lambda:us-east-1:123:layer" in
  let n := lone_surrogate in
  let v := "4" in
  let arn := pre +:+ ":" +:+ n +:+ ":" +:+ v in
  is_Some (codepoints arn)
  /\ count ":" n = O /\ count ":" v = O
  /\ parse_int v = Some 4 /\ 0 <= 4 /\ truthy None = false
  /\ LayerVersion.__init__ (VStr arn) None
     = Raise (UnicodeEncodeError "utf-8" arn 35 36 "surrogates not allowed")
  /\ ~ (exists lv suffix rest,
          LayerVersion.__init__ (VStr arn) None = Ok lv
          /\ LayerVersion.version lv = Some 4
          /\ LayerVersion.name lv = n +:+ "-" +:+ v +:+ "-" +:+ suffix
          /\ String.length suffix = 10%nat
          /\ Forall (fun c => is_lower_hex c = true) (list_ascii_of_string suffix)
          /\ SHA256.hexdigest (bytes_of arn) = suffix +:+ rest).
Proof.
  cbv zeta.
  assert (Hinit : LayerVersion.__init__
                    (VStr ("arn:aws:lambda:us-east-1:123:layer" +:+ ":"
                           +:+ lone_surrogate +:+ ":" +:+ "4")) None
                  = Raise (UnicodeEncodeError "utf-8"
                             ("arn:aws:lambda:us-east-1:123:layer" +:+ ":"
                              +:+ lone_surrogate +:+ ":" +:+ "4")
                             35 36 "surrogates not allowed"))
    by (vm_compute; reflexivity).
  split; [vm_compute; eauto|].
  do 5 (split; [first [reflexivity | lia]|]).
  split; [exact Hinit|].
  intros (lv & suffix & rest & Hok & _). rewrite Hinit in Hok. discriminate.
Qed.

(** C2, as amended. With an empty codeuri, construction from a string arn
    that holds no surrogate raises InvalidLayerVersionArn exactly when the
    arn has fewer than three colon-delimited segments or its last segment
    does not parse as an integer; in every other case it succeeds. *)
Theorem C2_invalid_arn_iff (arn : string) (codeuri : option string) :
  truthy codeuri = false ->
  has_surrogate arn = false ->
  let segments := split ":" arn in
  let ill_formed :=
    (length segments < 3)%nat \/ parse_int (List.last segments EmptyString) = None in
  ((exists msg, LayerVersion.__init__ (VStr arn) codeuri
                = Raise (InvalidLayerVersionArn msg)) <-> ill_formed)
  /\ ((exists lv, LayerVersion.__init__ (VStr arn) codeuri = Ok lv) <-> ~ ill_formed).
Proof.
  intros Hc Hs segments ill_formed. subst ill_formed segments.
  destruct (Nat.lt_ge_cases (length (split ":" arn)) 3) as [Hlt | Hge].
  - rewrite init_too_few_segments; [|assumption|rewrite rsplit_length; lia].
    unfold LayerVersion.invalid_arn. split; split.
    + intros _. now left.
    + intros _. eexists. reflexivity.
    + intros [lv Hlv]. discriminate.
    + intros Hn. exfalso. apply Hn. now left.
  - destruct (three_segments_cut arn Hge) as (p1 & v & p0 & n & H1 & H2 & ->).
    destruct (parse_int v) as [k|] eqn:Hk.
    + rewrite (init_published _ _ _ _ _ _ _ Hc H1 H2 Hs Hk). split; split.
      * intros [msg Hmsg]. discriminate.
      * intros [Hlt | Hnone]; [lia | discriminate].
      * intros _ [Hlt | Hnone]; [lia | discriminate].
      * intros _. eexists. reflexivity.
    + rewrite (init_bad_version _ _ _ _ _ _ Hc H1 H2 Hs Hk).
      unfold LayerVersion.invalid_arn. split; split.
      * intros _. now right.
      * intros _. eexists. reflexivity.
      * intros [lv Hlv]. discriminate.
      * intros Hn. exfalso. apply Hn. now right.
Qed.

Lemma C2_invalid_arn_iff_witness :
  (exists msg, LayerVersion.__init__ (VStr "not-an-arn") None
               = Raise (InvalidLayerVersionArn msg))
  /\ (exists msg, LayerVersion.__init__ (VStr "arn:aws:lambda:r:1:layer:l:one") (Some "")
                  = Raise (InvalidLayerVersionArn msg))
  /\ (exists lv, LayerVersion.__init__ (VStr "arn:aws:lambda:r:1:layer:l:1") None = Ok lv).
Proof.
  split; [|split].
  - apply (C2_invalid_arn_iff "not-an-arn" None eq_refl eq_refl). left. vm_compute. lia.
  - apply (C2_invalid_arn_iff "arn:aws:lambda:r:1:layer:l:one" (Some "") eq_refl eq_refl).
    right. reflexivity.
  - apply (C2_invalid_arn_iff "arn:aws:lambda:r:1:layer:l:1" None eq_refl eq_refl).
    intros [Hlt | Hnone]; [vm_compute in Hlt; lia | discriminate].
Defined.

(** C2, as first stated, fails in both directions: [a:<U+D800>:x] has
    three segments and a last segment that is no integer, yet the error
    raised is UnicodeEncodeError, not InvalidLayerVersionArn; and
    [a:<U+D800>:1] has three segments and an integer last, yet no layer is
    built. *)
Lemma C2_counterexample :
  let bad := "a:" +:+ lone_surrogate +:+ ":x" in
  let good := "a:" +:+ lone_surrogate +:+ ":1" in
  is_Some (codepoints bad) /\ is_Some (codepoints good)
  /\ parse_int (List.last (split ":" bad) EmptyString) = None
  /\ LayerVersion.__init__ (VStr bad) None
     = Raise (UnicodeEncodeError "utf-8" bad 2 3 "surrogates not allowed")
  /\ ~ (exists msg, LayerVersion.__init__ (VStr bad) None
                    = Raise (InvalidLayerVersionArn msg))
  /\ (3 <= length (split ":" good))%nat
  /\ parse_int (List.last (split ":" good) EmptyString) = Some 1
  /\ ~ (exists lv, LayerVersion.__init__ (VStr good) None = Ok lv).
Proof.
  cbv zeta.
  assert (Hbad : LayerVersion.__init__ (VStr ("a:" +:+ lone_surrogate +:+ ":x")) None
                 = Raise (UnicodeEncodeError "utf-8" ("a:" +:+ lone_surrogate +:+ ":x")
                            2 3 "surrogates not allowed"))
    by (vm_compute; reflexivity).
  assert (Hgood : LayerVersion.__init__ (VStr ("a:" +:+ lone_surrogate +:+ ":1")) None
                  = Raise (UnicodeEncodeError "utf-8" ("a:" +:+ lone_surrogate +:+ ":1")
                             2 3 "surrogates not allowed"))
    by (vm_compute; reflexivity).
  split; [vm_compute; eauto|]. split; [vm_compute; eauto|].
  split; [reflexivity|]. split; [exact Hbad|].
  split; [intros [msg Hmsg]; rewrite Hbad in Hmsg; discriminate|].
  split; [vm_compute; lia|]. split; [reflexivity|].
  intros [lv Hlv]. rewrite Hgood in Hlv. discriminate.
Qed.

(** C3. With a non-empty codeuri every string arn is accepted as the
    logical id of a layer of the template: the layer is defined within the
    template, its name is the arn and it has no version. *)
Theorem C3_template_layer (arn : string) (codeuri : option string) :
  truthy codeuri = true ->
  exists lv,
    LayerVersion.__init__ (VStr arn) codeuri = Ok lv
    /\ LayerVersion.is_defined_within_template lv = true
    /\ LayerVersion.name lv = arn
    /\ LayerVersion.version lv = None.
Proof.
  intros Hc. eexists. split; [now apply init_local|]. repeat split.
Qed.

Lemma C3_template_layer_witness :
  exists lv,
    LayerVersion.__init__ (VStr "arn:not:parsed") (Some "./layer") = Ok lv
    /\ LayerVersion.is_defined_within_template lv = true
    /\ LayerVersion.name lv = "arn:not:parsed"
    /\ LayerVersion.version lv = None.
Proof. apply (C3_template_layer "arn:not:parsed" (Some "./layer")). reflexivity. Defined.



Lemma init_attributes (arn : string) (codeuri : option string) (lv : LayerVersion.t) :
  LayerVersion.__init__ (VStr arn) codeuri = Ok lv ->
  LayerVersion.arn lv = arn /\ LayerVersion.codeuri lv = codeuri.
Proof.
  unfold LayerVersion.__init__.
  destruct (LayerVersion._compute_layer_name _ _); cbn; [|discriminate].
  destruct (LayerVersion._compute_layer_version _ _); cbn; [|discriminate].
  intros [= <-]. split; reflexivity.
Qed.

Lemma layer_arn_cut (lv : LayerVersion.t) (p v : string) :
  rcut ":" (LayerVersion.arn lv) = Some (p, v) -> LayerVersion.layer_arn lv = Ok p.
Proof.
  intros H. unfold LayerVersion.layer_arn. now rewrite (rsplit1_cut _ _ _ _ H).
Qed.

Lemma layer_arn_no_colon (lv : LayerVersion.t) :
  count ":" (LayerVersion.arn lv) = O ->
  LayerVersion.layer_arn lv = Raise (ValueError (NotEnoughValues 2 1)).
Proof.
  intros H. apply rcut_None_count in H.
  unfold LayerVersion.layer_arn. cbn [rsplit]. now rewrite H.
Qed.

(** C6. For a published layer (empty codeuri, construction succeeded) the
    arn has a last colon, and [layer_arn] is the part of the arn before
    it. *)
Theorem C6_layer_arn_strips_version
    (arn : string) (codeuri : option string) (lv : LayerVersion.t) :
  truthy codeuri = false ->
  LayerVersion.__init__ (VStr arn) codeuri = Ok lv ->
  (exists p v, arn = p +:+ ":" +:+ v /\ count ":" v = O)
  /\ (forall p v, arn = p +:+ ":" +:+ v -> count ":" v = O ->
                  LayerVersion.layer_arn lv = Ok p).
Proof.
  intros Hc Hinit. split.
  - destruct (Nat.lt_ge_cases (length (split ":" arn)) 3) as [Hlt | Hge].
    + rewrite init_too_few_segments in Hinit;
        [discriminate | assumption | rewrite rsplit_length; lia].
    + destruct (three_segments_cut arn Hge) as (p1 & v & _ & _ & H1 & _ & _).
      apply rcut_Some in H1 as [-> Hv]. now exists p1, v.
  - intros p v Harn Hv. apply layer_arn_cut with (v := v).
    destruct (init_attributes _ _ _ Hinit) as [-> _]. subst arn.
    change (":" +:+ v) with (String ":" v). now apply rcut_append.
Qed.

Lemma C6_layer_arn_strips_version_witness :
  exists lv,
    LayerVersion.__init__ (VStr "arn:aws:lambda:us-east-1:123:layer:mylayer:4") None = Ok lv
    /\ LayerVersion.layer_arn lv = Ok "arn:aws:lambda:us-east-1:123:layer:mylayer".
Proof.
  eexists. split; [vm_compute; reflexivity|].
  apply (proj2 (C6_layer_arn_strips_version
                  "arn:aws:lambda:us-east-1:123:layer:mylayer:4" None _ eq_refl eq_refl)
               "arn:aws:lambda:us-east-1:123:layer:mylayer" "4" eq_refl eq_refl).
Defined.

(** C7. Two LayerVersions built from the same arn and codeuri are equal;
    once the codeuri of one of them is set to another value they are not;
    a LayerVersion never equals an object of another type; and equality
    between instances is agreement on all five attributes. *)
Theorem C7_equality_is_structural
    (arn : string) (codeuri : option string) (a b : LayerVersion.t) :
  LayerVersion.__init__ (VStr arn) codeuri = Ok a ->
  LayerVersion.__init__ (VStr arn) codeuri = Ok b ->
  LayerVersion.__eq__ a (LayerVersion.Instance b) = true
  /\ (forall codeuri', codeuri' <> codeuri ->
        LayerVersion.__eq__ (LayerVersion.set_codeuri a codeuri') (LayerVersion.Instance b)
        = false
        /\ LayerVersion.__eq__ b (LayerVersion.Instance (LayerVersion.set_codeuri a codeuri'))
           = false)
  /\ (forall v, LayerVersion.__eq__ a (LayerVersion.Other v) = false)
  /\ (forall x y, LayerVersion.__eq__ x (LayerVersion.Instance y) = true <-> x = y).
Proof.
  intros Ha Hb. assert (a = b) as <- by congruence.
  destruct (init_attributes _ _ _ Ha) as [_ Hcu].
  split; [now apply dict_eq_spec|]. split; [|split].
  - intros codeuri' Hne.
    split; apply not_true_is_false; intros Heq; apply dict_eq_spec in Heq;
      apply (f_equal LayerVersion.codeuri) in Heq; cbn in Heq; congruence.
  - reflexivity.
  - intros x y. apply dict_eq_spec.
Qed.

Lemma C7_equality_is_structural_witness :
  let a := LayerVersion.Build "MyLayer" (Some "./layer") true "MyLayer" None in
  LayerVersion.__eq__ a (LayerVersion.Instance a) = true
  /\ LayerVersion.__eq__ (LayerVersion.set_codeuri a (Some "/tmp/build"))
       (LayerVersion.Instance a) = false
  /\ LayerVersion.__eq__ a (LayerVersion.Other (VStr "MyLayer")) = false.
Proof.
  intros a.
  destruct (C7_equality_is_structural "MyLayer" (Some "./layer") a a eq_refl eq_refl)
    as (Heq & Hset & Hother & _).
  split; [exact Heq|]. split; [|apply Hother].
  apply (Hset (Some "/tmp/build")). discriminate.
Defined.

(** C9. A layer whose arn has no colon, such as a layer of the template
    named by its logical id, is constructed, but [layer_arn] returns
    nothing for it: unpacking the one-element split raises ValueError. *)
Theorem C9_layer_arn_partial (arn : string) (codeuri : option string) :
  count ":" arn = O ->
  truthy codeuri = true ->
  exists lv,
    LayerVersion.__init__ (VStr arn) codeuri = Ok lv
    /\ (exists msg, LayerVersion.layer_arn lv = Raise (ValueError msg))
    /\ (forall r, LayerVersion.layer_arn lv <> Ok r).
Proof.
  intros Hcount Hc. eexists. split; [now apply init_local|].
  rewrite layer_arn_no_colon by exact Hcount.
  split; [eexists; reflexivity | discriminate].
Qed.

Lemma C9_layer_arn_partial_witness :
  exists lv,
    LayerVersion.__init__ (VStr "MyLayer") (Some "./layer") = Ok lv
    /\ (exists msg, LayerVersion.layer_arn lv = Raise (ValueError msg))
    /\ (forall r, LayerVersion.layer_arn lv <> Ok r).
Proof.
  apply (C9_layer_arn_partial "MyLayer" (Some "./layer")); reflexivity.
Defined.

(* ===================================================================== *)
(** ** Cors.cors_to_headers                                               *)
(* ===================================================================== *)

Lemma cors_to_headers_lookup (c : Cors.t) (k : string) :
  Cors.cors_to_headers (Some c) !! k = all_headers c !! k ≫= present.
Proof.
  unfold Cors.cors_to_headers. cbn [Cors.truthy Cors.fields length Nat.eqb negb].
  fold (all_headers c). rewrite map_lookup_filter.
  destruct (all_headers c !! k) as [v|]; [|reflexivity].
  cbn. unfold present. destruct (is_None v); reflexivity.
Qed.

Lemma all_headers_keys (c : Cors.t) (k : string) (v : value) :
  all_headers c !! k = Some v -> k ∈ header_names.
Proof.
  unfold all_headers, header_names. intros H.
  repeat (apply lookup_insert_Some in H as [[<- _] | [_ H]]; [set_solver|]).
  now rewrite lookup_empty in H.
Qed.

(** C5. No Cors gives no headers.  A Cors gives, under each of the four
    header names, the field of that name when it is not [None], and nothing
    otherwise: no value of the result is [None] and no other key occurs. *)
Theorem C5_cors_to_headers :
  Cors.cors_to_headers None = ∅
  /\ (forall c : Cors.t,
        let h := Cors.cors_to_headers (Some c) in
        h !! "Access-Control-Allow-Origin" = present (Cors.allow_origin c)
        /\ h !! "Access-Control-Allow-Methods" = present (Cors.allow_methods c)
        /\ h !! "Access-Control-Allow-Headers" = present (Cors.allow_headers c)
        /\ h !! "Access-Control-Max-Age" = present (Cors.max_age c)
        /\ (forall k v, h !! k = Some v -> is_None v = false /\ k ∈ header_names))
  /\ Cors.cors_to_headers (Some (Cors.Build (VStr "*") VNone VNone VNone))
     = {[ "Access-Control-Allow-Origin" := VStr "*" ]}.
Proof.
  split; [reflexivity|]. split.
  - intros c h. subst h. rewrite !cors_to_headers_lookup.
    repeat split; try reflexivity.
    + rewrite cors_to_headers_lookup in H.
      destruct (all_headers c !! k) as [x|]; [|discriminate].
      cbn in H. unfold present in H. destruct (is_None x) eqn:E; [discriminate|].
      now injection H as <-.
    + rewrite cors_to_headers_lookup in H.
      destruct (all_headers c !! k) as [x|] eqn:E; [|discriminate].
      now apply all_headers_keys in E.
  - apply map_eq. intros k. rewrite cors_to_headers_lookup.
    unfold all_headers. cbn [Cors.allow_origin Cors.allow_methods Cors.allow_headers Cors.max_age].
    destruct (decide (k = "Access-Control-Allow-Origin")) as [->|Hne]; [reflexivity|].
    rewrite lookup_singleton_ne by congruence.
    destruct (decide (k = "Access-Control-Max-Age")) as [->|H1]; [reflexivity|].
    rewrite lookup_insert_ne by congruence.
    destruct (decide (k = "Access-Control-Allow-Headers")) as [->|H2]; [reflexivity|].
    rewrite lookup_insert_ne by congruence.
    destruct (decide (k = "Access-Control-Allow-Methods")) as [->|H3]; [reflexivity|].
    rewrite lookup_insert_ne by congruence.
    rewrite lookup_insert_ne by congruence. reflexivity.
Qed.

(** C10. A Cors with its four fields left at [None] is still a true value,
    so the fields are filtered, and every one of them is dropped: the result
    is the empty mapping, as for no Cors. *)
Theorem C10_all_fields_absent :
  Cors.truthy (Some Cors.default) = true
  /\ Cors.cors_to_headers (Some Cors.default) = ∅
  /\ Cors.cors_to_headers (Some Cors.default) = Cors.cors_to_headers None.
Proof.
  assert (H : Cors.cors_to_headers (Some Cors.default) = ∅).
  { apply map_eq. intros k. rewrite cors_to_headers_lookup, lookup_empty.
    destruct (all_headers Cors.default !! k) as [v|] eqn:E; [|reflexivity].
    unfold all_headers in E. cbn in E.
    repeat (apply lookup_insert_Some in E as [[_ <-] | [_ E]]; [reflexivity|]).
    now rewrite lookup_empty in E. }
  split; [reflexivity|]. split; [exact H | now rewrite H].
Qed.

(* ===================================================================== *)
(** ** Api.__hash__                                                       *)
(* ===================================================================== *)

Section ApiHash.
Variable hash_atom : value -> Z.
Variable hash_tuple : list Z -> Z.

(** The hash reads [routes], [cors] and [binary_media_types_set] only. *)
Lemma hash_ignores_stage (a : Api.t) (name variables : value) :
  Api.__hash__ hash_atom hash_tuple
    (Api.Build (Api.routes a) (Api.cors a) (Api.binary_media_types_set a)
               name variables)
  = Api.__hash__ hash_atom hash_tuple a.
Proof. reflexivity. Qed.

(** A [set] is unhashable, so no Api has a hash. *)
Lemma hash_never_returns (a : Api.t) (h : Z) :
  Api.__hash__ hash_atom hash_tuple a <> Ok h.
Proof.
  unfold Api.__hash__.
  destruct (hash hash_atom hash_tuple (Api.routes a)); cbn; [|discriminate].
  destruct (Api.hash_cors hash_atom hash_tuple (Api.cors a)); cbn; discriminate.
Qed.

(** C8. [Api()] keeps its routes in a list and its media types in a set,
    and neither can be hashed: [__hash__] raises TypeError instead of
    returning a hash of the three attributes. *)
Theorem C8_hash_of_new_api_raises :
  Api.__hash__ hash_atom hash_tuple (Api.__init__ VNone)
  = Raise (TypeError "unhashable type: 'list'")
  /\ Api.__hash__ hash_atom hash_tuple (Api.__init__ (VTuple []))
     = Raise (TypeError "unhashable type: 'set'").
Proof. split; reflexivity. Qed.

End ApiHash.

(* ===================================================================== *)
(** ** LayerVersion: what construction lets through                       *)
(* ===================================================================== *)

Lemma count_append (sep : ascii) (a b : string) :
  count sep (a +:+ b) = (count sep a + count sep b)%nat.
Proof.
  induction a as [|x a IH]; [reflexivity|].
  rewrite append_cons. simpl. destruct (Ascii.eqb x sep); simpl; now rewrite IH.
Qed.

Lemma count_lower_hex (s : string) :
  Forall (fun c => is_lower_hex c = true) (list_ascii_of_string s) ->
  count ":" s = O.
Proof.
  induction s as [|x s IH]; [reflexivity|].
  simpl. intros Hall. apply List.Forall_cons_iff in Hall as [Hx Hall].
  destruct (Ascii.eqb x ":") eqn:E; [|now apply IH].
  apply Ascii.eqb_eq in E. subst x. discriminate Hx.
Qed.

Lemma slice_digest_lower (bs : list Z) :
  Forall (fun c => is_lower_hex c = true)
    (list_ascii_of_string (slice_to 10 (SHA256.hexdigest bs))).
Proof.
  pose proof (hexdigest_lower bs) as Hall.
  destruct (slice_to_prefix 10 (SHA256.hexdigest bs)) as [rest Hrest].
  rewrite Hrest, chars_append in Hall. now apply Forall_app in Hall as [Hall _].
Qed.

(** A published layer comes from an encodable arn that cuts twice, with an
    integer after the last colon. *)
Lemma init_published_inv (arn : string) (codeuri : option string) (lv : LayerVersion.t) :
  truthy codeuri = false ->
  LayerVersion.__init__ (VStr arn) codeuri = Ok lv ->
  exists p0 n v k,
    arn = (p0 +:+ String ":" n) +:+ String ":" v
    /\ count ":" n = O /\ count ":" v = O
    /\ parse_int v = Some k
    /\ has_surrogate arn = false
    /\ lv = LayerVersion.Build arn codeuri false (published_name arn n v) (Some k).
Proof.
  intros Hc Hinit.
  destruct (Nat.lt_ge_cases (length (split ":" arn)) 3) as [Hlt | Hge].
  { rewrite init_too_few_segments in Hinit;
      [discriminate | assumption | rewrite rsplit_length; lia]. }
  destruct (three_segments_cut arn Hge) as (p1 & v & p0 & n & H1 & H2 & _).
  destruct (has_surrogate arn) eqn:Hs.
  { destruct (init_unencodable _ _ _ _ _ _ Hc H1 H2 Hs) as (a & b & Hraise).
    rewrite Hraise in Hinit. discriminate. }
  destruct (parse_int v) as [k|] eqn:Hk.
  - rewrite (init_published _ _ _ _ _ _ _ Hc H1 H2 Hs Hk) in Hinit.
    injection Hinit as <-.
    pose proof (rcut_Some _ _ _ _ H1) as [Harn Hv].
    pose proof (rcut_Some _ _ _ _ H2) as [Hp1 Hn].
    exists p0, n, v, k. rewrite <- Hp1. repeat split; assumption.
  - rewrite (init_bad_version _ _ _ _ _ _ Hc H1 H2 Hs Hk) in Hinit. discriminate.
Qed.



(** X2. On its own, [_compute_layer_version] asks for one colon only: for
    an arn not defined in the template it returns [k] exactly when the arn
    has at least two segments and [int] reads the last one as [k]; in
    every other case it raises InvalidLayerVersionArn.  It never returns
    [None] there, and a surrogate in the arn is no obstacle. *)
Theorem X2_compute_layer_version (arn : string) :
  let segments := split ":" arn in
  (forall r, LayerVersion._compute_layer_version false arn = Ok r <->
             exists k, r = Some k /\ (2 <= length segments)%nat
                       /\ parse_int (List.last segments EmptyString) = Some k)
  /\ (forall e, LayerVersion._compute_layer_version false arn = Raise e ->
                e = InvalidLayerVersionArn (invalid_arn_message arn)).
Proof.
  intros segments. subst segments.
  unfold LayerVersion._compute_layer_version. cbn [rsplit].
  rewrite (split_rcut ":" arn).
  destruct (rcut ":" arn) as [[p v]|] eqn:H1.
  - rewrite last_last, length_app. cbn.
    pose proof (split_nonempty ":" p) as Hne.
    assert (Hlen : (2 <= length (split ":" p) + 1)%nat).
    { destruct (split ":" p); [congruence | simpl; lia]. }
    destruct (parse_int v) as [k|] eqn:Hk.
    + rewrite (int_parse _ _ Hk). cbn. split.
      * intros r. split.
        -- intros [= <-]. exists k. repeat split. exact Hlen.
        -- intros (k' & -> & _ & [= ->]). reflexivity.
      * intros e He. discriminate.
    + destruct (int_no_parse _ Hk) as [cause ->]. cbn. split.
      * intros r. split; [discriminate|]. intros (k' & _ & _ & Hk'). discriminate.
      * intros e [= <-]. reflexivity.
  - cbn. split.
    + intros r. split; [discriminate|]. intros (k & _ & Hlen & _). lia.
    + intros e [= <-]. reflexivity.
Qed.

Lemma X2_compute_layer_version_witness :
  LayerVersion._compute_layer_version false "mylayer:4" = Ok (Some 4)
  /\ (forall e, LayerVersion._compute_layer_version false "4" = Raise e ->
                e = InvalidLayerVersionArn (invalid_arn_message "4")).
Proof.
  split.
  - apply (proj1 (X2_compute_layer_version "mylayer:4")). exists 4.
    repeat split. vm_compute. lia.
  - apply (proj2 (X2_compute_layer_version "4")).
Defined.



(** The constructor looks at the codeuri only to see whether it is empty. *)
Lemma init_same_truthiness (arn : string) (c1 c2 : option string) (a : LayerVersion.t) :
  LayerVersion.__init__ (VStr arn) c1 = Ok a ->
  truthy c1 = truthy c2 ->
  LayerVersion.__init__ (VStr arn) c2 = Ok (LayerVersion.set_codeuri a c2).
Proof.
  unfold LayerVersion.__init__. intros H Ht. rewrite <- Ht.
  destruct (LayerVersion._compute_layer_name _ _); cbn in *; [|discriminate].
  destruct (LayerVersion._compute_layer_version _ _); cbn in *; [|discriminate].
  injection H as <-. reflexivity.
Qed.

Lemma init_is_defined (arn : string) (c : option string) (a : LayerVersion.t) :
  LayerVersion.__init__ (VStr arn) c = Ok a ->
  LayerVersion.is_defined_within_template a = truthy c.
Proof.
  unfold LayerVersion.__init__. intros H.
  destruct (LayerVersion._compute_layer_name _ _); cbn in *; [|discriminate].
  destruct (LayerVersion._compute_layer_version _ _); cbn in *; [|discriminate].
  injection H as <-. reflexivity.
Qed.

Lemma published_name_no_colon (arn n v : string) :
  count ":" n = O -> count ":" v = O -> count ":" (published_name arn n v) = O.
Proof.
  intros Hn Hv. unfold published_name, LayerVersion.LAYER_NAME_DELIMETER.
  cbn [join]. rewrite !count_append, Hn, Hv.
  rewrite (count_lower_hex _ (slice_digest_lower (bytes_of arn))). reflexivity.
Qed.

(** X4. Every layer the constructor builds from an empty codeuri comes
    from an arn [pre:n:v] which has a UTF-8 encoding and whose last segment
    reads as an integer [k]: its version is [k], its name is
    [n-v-<suffix>], its [layer_arn] is [pre:n] and it is not defined within
    the template. *)
Theorem X4_published_layer_shape
    (arn : string) (codeuri : option string) (lv : LayerVersion.t) :
  truthy codeuri = false ->
  LayerVersion.__init__ (VStr arn) codeuri = Ok lv ->
  exists pre n v k,
    arn = pre +:+ ":" +:+ n +:+ ":" +:+ v
    /\ count ":" n = O /\ count ":" v = O
    /\ parse_int v = Some k
    /\ encode_utf8 arn = Ok (bytes_of arn)
    /\ LayerVersion.version lv = Some k
    /\ LayerVersion.name lv
       = n +:+ "-" +:+ v +:+ "-" +:+ slice_to 10 (SHA256.hexdigest (bytes_of arn))
    /\ LayerVersion.layer_arn lv = Ok (pre +:+ ":" +:+ n)
    /\ LayerVersion.is_defined_within_template lv = false.
Proof.
  intros Hc Hinit.
  destruct (init_published_inv _ _ _ Hc Hinit)
    as (p0 & n & v & k & Harn & Hn & Hv & Hk & Hs & ->).
  exists p0, n, v, k.
  split; [rewrite Harn; now rewrite append_assoc|].
  do 3 (split; [assumption|]).
  split; [now apply encode_no_surrogate|].
  do 2 (split; [reflexivity|]).
  split; [|reflexivity].
  apply layer_arn_cut with (v := v). cbn [LayerVersion.arn LayerVersion._arn].
  rewrite Harn. now apply rcut_append.
Qed.

Lemma X4_published_layer_shape_witness :
  exists pre n v k,
    "arn:aws:lambda:eu-west-1:42:layer:deps:-7"
    = pre +:+ ":" +:+ n +:+ ":" +:+ v
    /\ count ":" n = O /\ count ":" v = O
    /\ parse_int v = Some k
    /\ encode_utf8 "arn:aws:lambda:eu-west-1:42:layer:deps:-7"
       = Ok (bytes_of "arn:aws:lambda:eu-west-1:42:layer:deps:-7")
    /\ LayerVersion.version
         (LayerVersion.Build "arn:aws:lambda:eu-west-1:42:layer:deps:-7" None false
            "deps--7-4edab280f4" (Some (-7))) = Some k
    /\ LayerVersion.name
         (LayerVersion.Build "arn:aws:lambda:eu-west-1:42:layer:deps:-7" None false
            "deps--7-4edab280f4" (Some (-7)))
       = n +:+ "-" +:+ v +:+ "-"
         +:+ slice_to 10 (SHA256.hexdigest
                            (bytes_of "arn:aws:lambda:eu-west-1:42:layer:deps:-7"))
    /\ LayerVersion.layer_arn
         (LayerVersion.Build "arn:aws:lambda:eu-west-1:42:layer:deps:-7" None false
            "deps--7-4edab280f4" (Some (-7))) = Ok (pre +:+ ":" +:+ n)
    /\ LayerVersion.is_defined_within_template
         (LayerVersion.Build "arn:aws:lambda:eu-west-1:42:layer:deps:-7" None false
            "deps--7-4edab280f4" (Some (-7))) = false.
Proof.
  apply (X4_published_layer_shape "arn:aws:lambda:eu-west-1:42:layer:deps:-7" None).
  - reflexivity.
  - vm_compute. reflexivity.
Defined.

(** X5. The name of a layer built from an empty codeuri contains no
    colon, although the arn it is derived from contains at least two. *)
Theorem X5_published_name_has_no_colon
    (arn : string) (codeuri : option string) (lv : LayerVersion.t) :
  truthy codeuri = false ->
  LayerVersion.__init__ (VStr arn) codeuri = Ok lv ->
  count ":" (LayerVersion.name lv) = O /\ (2 <= count ":" arn)%nat.
Proof.
  intros Hc Hinit.
  destruct (init_published_inv _ _ _ Hc Hinit)
    as (p0 & n & v & k & Harn & Hn & Hv & Hk & _ & ->).
  split; [now apply published_name_no_colon|].
  rewrite Harn, !count_append. simpl. lia.
Qed.

Lemma X5_published_name_has_no_colon_witness :
  count ":" (LayerVersion.name
               (LayerVersion.Build "arn:aws:lambda:us-east-1:123:layer:mylayer:4" (Some "")
                  false "mylayer-4-2cf51de6e9" (Some 4))) = O
  /\ (2 <= count ":" "arn:aws:lambda:us-east-1:123:layer:mylayer:4")%nat.
Proof.
  apply (X5_published_name_has_no_colon
           "arn:aws:lambda:us-east-1:123:layer:mylayer:4" (Some "")).
  - reflexivity.
  - vm_compute. reflexivity.
Defined.

(** X6. The codeuri setter changes the codeuri and nothing else: name,
    version and [is_defined_within_template] stay what the constructor
    computed from the first codeuri, so the flag can disagree with the new
    codeuri.  Before and after, the version is [None] exactly when the flag
    is set, and then the name is the arn. *)
Theorem X6_setter_keeps_derived_attributes
    (arn : string) (codeuri codeuri' : option string) (lv : LayerVersion.t) :
  LayerVersion.__init__ (VStr arn) codeuri = Ok lv ->
  let lv' := LayerVersion.set_codeuri lv codeuri' in
  LayerVersion.codeuri lv' = codeuri'
  /\ LayerVersion.arn lv' = arn
  /\ LayerVersion.name lv' = LayerVersion.name lv
  /\ LayerVersion.version lv' = LayerVersion.version lv
  /\ LayerVersion.is_defined_within_template lv' = truthy codeuri
  /\ (LayerVersion.version lv' = None
      <-> LayerVersion.is_defined_within_template lv' = true)
  /\ (LayerVersion.is_defined_within_template lv' = true -> LayerVersion.name lv' = arn).
Proof.
  intros Hinit lv'. subst lv'.
  destruct (truthy codeuri) eqn:Hc.
  - rewrite init_local in Hinit by assumption. injection Hinit as <-.
    cbn. repeat split.
  - destruct (init_published_inv _ _ _ Hc Hinit)
      as (p0 & n & v & k & Harn & Hn & Hv & Hk & _ & ->).
    cbn. repeat split; discriminate.
Qed.

Lemma X6_setter_keeps_derived_attributes_witness :
  let lv := LayerVersion.Build "arn:aws:lambda:us-east-1:123:layer:mylayer:4" None
              false "mylayer-4-2cf51de6e9" (Some 4) in
  let lv' := LayerVersion.set_codeuri lv (Some "/tmp/layers/mylayer") in
  LayerVersion.codeuri lv' = Some "/tmp/layers/mylayer"
  /\ LayerVersion.arn lv' = "arn:aws:lambda:us-east-1:123:layer:mylayer:4"
  /\ LayerVersion.name lv' = LayerVersion.name lv
  /\ LayerVersion.version lv' = LayerVersion.version lv
  /\ LayerVersion.is_defined_within_template lv' = truthy None
  /\ (LayerVersion.version lv' = None
      <-> LayerVersion.is_defined_within_template lv' = true)
  /\ (LayerVersion.is_defined_within_template lv' = true ->
      LayerVersion.name lv' = "arn:aws:lambda:us-east-1:123:layer:mylayer:4").
Proof.
  intros lv.
  apply (X6_setter_keeps_derived_attributes
           "arn:aws:lambda:us-east-1:123:layer:mylayer:4" None
           (Some "/tmp/layers/mylayer") lv).
  vm_compute. reflexivity.
Defined.

(** X7. Two layers built from one arn with different codeuris are never
    equal as built; once the setter has given both the same codeuri they are
    equal exactly when the two first codeuris were both empty or both
    non-empty. *)
Theorem X7_equality_after_setting_codeuri
    (arn : string) (c1 c2 c : option string) (a b : LayerVersion.t) :
  LayerVersion.__init__ (VStr arn) c1 = Ok a ->
  LayerVersion.__init__ (VStr arn) c2 = Ok b ->
  (c1 <> c2 -> LayerVersion.__eq__ a (LayerVersion.Instance b) = false)
  /\ (LayerVersion.__eq__ (LayerVersion.set_codeuri a c)
        (LayerVersion.Instance (LayerVersion.set_codeuri b c)) = true
      <-> truthy c1 = truthy c2).
Proof.
  intros Ha Hb. split.
  - intros Hne. apply not_true_is_false. intros Heq. apply dict_eq_spec in Heq.
    destruct (init_attributes _ _ _ Ha) as [_ Hca].
    destruct (init_attributes _ _ _ Hb) as [_ Hcb]. congruence.
  - cbn [LayerVersion.__eq__]. rewrite dict_eq_spec. split.
    + intros Heq. apply (f_equal LayerVersion.is_defined_within_template) in Heq.
      cbn in Heq. now rewrite (init_is_defined _ _ _ Ha), (init_is_defined _ _ _ Hb) in Heq.
    + intros Ht. pose proof (init_same_truthiness _ _ _ _ Ha Ht) as Hb'.
      rewrite Hb in Hb'. injection Hb' as ->. reflexivity.
Qed.

Lemma X7_equality_after_setting_codeuri_witness :
  let a := LayerVersion.Build "arn:aws:lambda:us-east-1:123:layer:mylayer:4" None
             false "mylayer-4-2cf51de6e9" (Some 4) in
  let b := LayerVersion.Build "arn:aws:lambda:us-east-1:123:layer:mylayer:4" (Some "")
             false "mylayer-4-2cf51de6e9" (Some 4) in
  LayerVersion.__eq__ a (LayerVersion.Instance b) = false
  /\ LayerVersion.__eq__ (LayerVersion.set_codeuri a (Some "/opt"))
       (LayerVersion.Instance (LayerVersion.set_codeuri b (Some "/opt"))) = true.
Proof.
  intros a b.
  destruct (X7_equality_after_setting_codeuri
              "arn:aws:lambda:us-east-1:123:layer:mylayer:4" None (Some "") (Some "/opt")
              a b) as [Hne Hiff].
  - vm_compute. reflexivity.
  - vm_compute. reflexivity.
  - split; [apply Hne; discriminate | apply Hiff; reflexivity].
Defined.

(** X8. For any LayerVersion, however it was built, [layer_arn] returns
    [p] exactly when the arn is [p], a colon and a colon-free rest; when the
    arn has no colon it raises the ValueError of the unpacking, "not enough
    values to unpack (expected 2, got 1)", and it does nothing else. *)
Theorem X8_layer_arn_characterised (lv : LayerVersion.t) :
  (forall p, LayerVersion.layer_arn lv = Ok p <->
             exists v, LayerVersion.arn lv = p +:+ ":" +:+ v /\ count ":" v = O)
  /\ (forall e, LayerVersion.layer_arn lv = Raise e <->
                count ":" (LayerVersion.arn lv) = O
                /\ e = ValueError (NotEnoughValues 2 1)).
Proof.
  destruct (rcut ":" (LayerVersion.arn lv)) as [[p0 v0]|] eqn:H1.
  - rewrite (layer_arn_cut _ _ _ H1).
    pose proof (rcut_Some _ _ _ _ H1) as [Harn Hv0]. split.
    + intros p. split.
      * intros [= <-]. now exists v0.
      * intros (v & Harn' & Hv). f_equal.
        change (":" +:+ v) with (String ":" v) in Harn'.
        rewrite Harn' in H1. rewrite rcut_append in H1 by assumption. congruence.
    + intros e. split; [discriminate|]. intros [Hcount _].
      apply rcut_None_count in Hcount. congruence.
  - pose proof H1 as Hcount. apply rcut_None_count in Hcount.
    rewrite (layer_arn_no_colon _ Hcount). split.
    + intros p. split; [discriminate|]. intros (v & Harn & Hv).
      rewrite Harn in Hcount. rewrite count_append in Hcount.
      change (":" +:+ v) with (String ":" v) in Hcount. simpl in Hcount. lia.
    + intros e. split; [intros [= <-]; now split | intros [_ ->]; reflexivity].
Qed.

(* ===================================================================== *)
(** ** Cors: what the headers tell about the Cors                         *)
(* ===================================================================== *)

Lemma is_None_true (v : value) : is_None v = true -> v = VNone.
Proof. destruct v; try discriminate. reflexivity. Qed.

Lemma present_inj (a b : value) : present a = present b -> a = b.
Proof.
  unfold present. destruct (is_None a) eqn:Ea, (is_None b) eqn:Eb; try discriminate.
  - intros _. apply is_None_true in Ea, Eb. congruence.
  - now intros [= ->].
Qed.

Lemma header_lookups (c : Cors.t) :
  Cors.cors_to_headers (Some c) !! "Access-Control-Allow-Origin"
  = present (Cors.allow_origin c)
  /\ Cors.cors_to_headers (Some c) !! "Access-Control-Allow-Methods"
     = present (Cors.allow_methods c)
  /\ Cors.cors_to_headers (Some c) !! "Access-Control-Allow-Headers"
     = present (Cors.allow_headers c)
  /\ Cors.cors_to_headers (Some c) !! "Access-Control-Max-Age"
     = present (Cors.max_age c).
Proof. rewrite !cors_to_headers_lookup. repeat split. Qed.

Lemma headers_determine_fields (c1 c2 : Cors.t) :
  Cors.cors_to_headers (Some c1) = Cors.cors_to_headers (Some c2) -> c1 = c2.
Proof.
  intros Heq.
  destruct (header_lookups c1) as (A1 & B1 & C1 & D1).
  destruct (header_lookups c2) as (A2 & B2 & C2 & D2).
  rewrite Heq in A1, B1, C1, D1.
  rewrite A2 in A1. rewrite B2 in B1. rewrite C2 in C1. rewrite D2 in D1.
  apply present_inj in A1, B1, C1, D1.
  destruct c1, c2. cbn in *. congruence.
Qed.

Lemma headers_of_default : Cors.cors_to_headers (Some Cors.default) = ∅.
Proof.
  apply map_eq. intros k. rewrite cors_to_headers_lookup, lookup_empty.
  destruct (all_headers Cors.default !! k) as [v|] eqn:E; [|reflexivity].
  unfold all_headers in E. cbn in E.
  repeat (apply lookup_insert_Some in E as [[_ <-] | [_ E]]; [reflexivity|]).
  now rewrite lookup_empty in E.
Qed.

Lemma headers_empty_blank (c : option Cors.t) :
  Cors.cors_to_headers c = ∅ <-> blank_cors c.
Proof.
  unfold blank_cors. split.
  - destruct c as [c|]; [|now left]. intros Hempty. right. f_equal.
    apply headers_determine_fields. now rewrite headers_of_default.
  - intros [-> | ->]; [reflexivity | apply headers_of_default].
Qed.

(** X9. The headers determine the Cors they come from, but for the two
    that give no header: two arguments have the same headers exactly when
    they are the same, or each is either no Cors or a Cors with no field
    set. *)
Theorem X9_headers_determine_cors (c1 c2 : option Cors.t) :
  Cors.cors_to_headers c1 = Cors.cors_to_headers c2
  <-> c1 = c2 \/ (blank_cors c1 /\ blank_cors c2).
Proof.
  split.
  - intros Heq. destruct c1 as [c1|], c2 as [c2|].
    + left. f_equal. now apply headers_determine_fields.
    + right. split; [|now left]. apply headers_empty_blank. now rewrite Heq.
    + right. split; [now left|]. apply headers_empty_blank. now rewrite <- Heq.
    + now left.
  - intros [-> | [H1 H2]]; [reflexivity|].
    apply headers_empty_blank in H1, H2. now rewrite H1, H2.
Qed.

Lemma size_filter_insert_fresh (m : gmap string value) (k : string) (v : value) :
  m !! k = None ->
  size (filter (fun kv : string * value => is_None kv.2 = false) (<[k:=v]> m))
  = ((if is_None v then 0 else 1)
     + size (filter (fun kv : string * value => is_None kv.2 = false) m))%nat.
Proof.
  intros Hfresh. rewrite map_filter_insert. cbn. case_decide as Hv.
  - rewrite Hv. rewrite map_size_insert_None; [reflexivity|].
    apply map_lookup_filter_None. left. exact Hfresh.
  - apply not_false_is_true in Hv. rewrite Hv.
    now rewrite delete_id by exact Hfresh.
Qed.

(** X10. A Cors gives as many headers as it has fields that are set, so at
    most four. *)
Theorem X10_one_header_per_set_field (c : Cors.t) :
  size (Cors.cors_to_headers (Some c)) = length (set_fields c)
  /\ (size (Cors.cors_to_headers (Some c)) <= 4)%nat.
Proof.
  assert (Hsize : size (Cors.cors_to_headers (Some c)) = length (set_fields c)).
  { unfold Cors.cors_to_headers.
    cbn [Cors.truthy Cors.fields length Nat.eqb negb].
    rewrite !size_filter_insert_fresh by reflexivity.
    rewrite map_filter_empty, map_size_empty.
    unfold set_fields, Cors.fields. cbn [List.filter].
    destruct (is_None (Cors.allow_origin c)), (is_None (Cors.allow_methods c)),
      (is_None (Cors.allow_headers c)), (is_None (Cors.max_age c)); reflexivity. }
  split; [exact Hsize|]. rewrite Hsize.
  unfold set_fields, Cors.fields. cbn [List.filter].
  destruct (is_None (Cors.allow_origin c)), (is_None (Cors.allow_methods c)),
    (is_None (Cors.allow_headers c)), (is_None (Cors.max_age c)); simpl; lia.
Qed.

(* ===================================================================== *)
(** ** Api: hashing and the media types                                   *)
(* ===================================================================== *)

Section ApiFacts.
Variable hash_atom : value -> Z.
Variable hash_tuple : list Z -> Z.

(** [hash] fails with TypeError only. *)
Lemma hash_raises_TypeError :
  forall (v : value) (e : exn),
    hash hash_atom hash_tuple v = Raise e -> exists msg, e = TypeError msg.
Proof.
  fix IH 1. intros v e.
  destruct v as [| b | n | s | xs | xs | items]; cbn; try discriminate.
  - intros [= <-]. eexists. reflexivity.
  - match goal with |- context [?f xs] =>
      assert (Hall : forall e', f xs = Raise e' -> exists msg, e' = TypeError msg)
    end.
    { induction xs as [|x xs IHxs]; intros e'; [discriminate|].
      destruct (hash hash_atom hash_tuple x) as [h|ex] eqn:Hx; cbn.
      - match goal with |- context [?f xs] => destruct (f xs) eqn:Hxs end; cbn.
        + discriminate.
        + intros [= <-]. now apply IHxs.
      - intros [= <-]. exact (IH x ex Hx). }
    match goal with |- context [?f xs] => destruct (f xs) eqn:Hxs end; cbn.
    + discriminate.
    + intros [= <-]. now apply Hall.
  - intros [= <-]. eexists. reflexivity.
Qed.

(** X11. Whatever its routes and Cors, hashing an Api raises TypeError: it
    never returns a hash and never fails in another way. *)
Theorem X11_hash_always_raises_TypeError (a : Api.t) :
  exists msg, Api.__hash__ hash_atom hash_tuple a = Raise (TypeError msg).
Proof.
  unfold Api.__hash__.
  destruct (hash hash_atom hash_tuple (Api.routes a)) as [h1|e1] eqn:H1; cbn.
  - destruct (Api.hash_cors hash_atom hash_tuple (Api.cors a)) as [h2|e2] eqn:H2; cbn.
    + eexists. reflexivity.
    + unfold Api.hash_cors in H2.
      destruct (Api.cors a); apply hash_raises_TypeError in H2 as [msg ->];
        eexists; reflexivity.
  - apply hash_raises_TypeError in H1 as [msg ->]. eexists. reflexivity.
Qed.

End ApiFacts.

(** X12. [binary_media_types] lists the members of the set, each once: a
    media type is in the list exactly when it is in the set, the list has
    no duplicates and as many entries as the set has members; for a new Api
    it is empty. *)
Theorem X12_binary_media_types (a : Api.t) (routes : value) :
  (forall x, x ∈ Api.binary_media_types a <-> x ∈ Api.binary_media_types_set a)
  /\ NoDup (Api.binary_media_types a)
  /\ length (Api.binary_media_types a) = size (Api.binary_media_types_set a)
  /\ Api.binary_media_types (Api.__init__ routes) = [].
Proof.
  unfold Api.binary_media_types. split; [|split; [|split]].
  - intros x. apply elem_of_elements.
  - apply NoDup_elements.
  - reflexivity.
  - cbn. apply elements_empty.
Qed.
